(** * shoalhavenScraper: the DA table, from the Data Service to the browser

    A shallow embedding of the two programs of the repository:

    - [backend/index.js], the Express application with its single route
      [GET /api/data] (module [Backend]);
    - the React component [App] that fetches that route once and renders
      the rows as a table (module [Frontend]).

    Both programs move JSON around, so the development starts with the
    JavaScript values they handle and the few operators the source applies
    to them. *)

From Stdlib Require Import String Ascii List ZArith Bool Lia.
From Stdlib Require Import DecimalString.
Import ListNotations.

Local Open Scope string_scope.
Local Open Scope list_scope.
Local Open Scope Z_scope.

Set Warnings "-register-all".

(** ** JavaScript values *)

Module JS.

(** The values a JSON response can carry, and [undefined], which is what
    reading a missing property gives.  Numbers are the integers: the only
    number of a DA record is [DA_Number]. An object keeps its properties in
    insertion order, as [JSON.stringify] and [Object.keys] see them. *)
Inductive Value : Type :=
| Undefined
| Null
| Bool (b : bool)
| Num (n : Z)
| Str (s : string)
| Arr (items : list Value)
| Obj (props : list (string * Value)).

(** What evaluating an expression gives: a value, or a thrown [TypeError]. *)
Inductive result (A : Type) : Type :=
| Ok (a : A)
| Throw (msg : string).
Arguments Ok {A} a.
Arguments Throw {A} msg.

Definition bind {A B} (r : result A) (k : A -> result B) : result B :=
  match r with
  | Ok a => k a
  | Throw m => Throw m
  end.

Notation "x <- r ;; k" := (bind r (fun x => k))
  (at level 61, r at next level, right associativity).

(** [mapM f xs]: [xs.map(f)] where [f] may throw; the first exception ends
    the whole call. *)
Fixpoint mapM {A B} (f : A -> result B) (xs : list A) : result (list B) :=
  match xs with
  | [] => Ok []
  | x :: rest =>
      y <- f x ;;
      ys <- mapM f rest ;;
      Ok (y :: ys)
  end.

(** ToBoolean. *)
Definition truthy (v : Value) : bool :=
  match v with
  | Undefined | Null => false
  | Bool b => b
  | Num n => negb (n =? 0)
  | Str s => negb (s =? "")%string
  | Arr _ | Obj _ => true
  end.

(** [a && b]: [a] when [a] is falsy, [b] otherwise. *)
Definition and_ (a b : Value) : Value := if truthy a then b else a.

(** [v === "lit"] for a string literal: only a string with the same
    characters is strictly equal to it. *)
Definition strict_eq_str (v : Value) (lit : string) : bool :=
  match v with
  | Str s => (s =? lit)%string
  | _ => false
  end.

(** Own-property lookup in an object's property list. *)
Fixpoint lookup (k : string) (props : list (string * Value)) : option Value :=
  match props with
  | [] => None
  | (k', v) :: rest => if (k' =? k)%string then Some v else lookup k rest
  end.

(** [v.k] for a data property [k]: a [TypeError] on [null] and [undefined],
    [undefined] for a property the value does not have. *)
Definition get (v : Value) (k : string) : result Value :=
  match v with
  | Undefined => Throw "Cannot read properties of undefined"
  | Null => Throw "Cannot read properties of null"
  | Obj props =>
      Ok match lookup k props with
         | Some x => x
         | None => Undefined
         end
  | _ => Ok Undefined
  end.

(** The decimal text of a number, as [String(n)] gives it for an integer. *)
Definition num_to_string (n : Z) : string :=
  NilZero.string_of_int (Z.to_int n).

End JS.

Import JS.

(** ** The API Gateway: [backend/index.js] *)

Module Backend.

(** *** The Data Service client

    [supabase.from(TABLE).select("*").order("DA_Number", { ascending: false })]
    builds a query step by step; awaiting it sends the query and gives an
    object with [data] and [error]. *)

Record Query : Type := mkQuery {
  q_table : string;
  q_columns : string;
  q_order : option (string * bool)   (* column, ascending *)
}.

Definition from (table : string) : Query :=
  {| q_table := table; q_columns := ""; q_order := None |}.

Definition select (columns : string) (q : Query) : Query :=
  {| q_table := q_table q; q_columns := columns; q_order := q_order q |}.

Definition order (column : string) (ascending : bool) (q : Query) : Query :=
  {| q_table := q_table q; q_columns := q_columns q;
     q_order := Some (column, ascending) |}.

(** The [error] of the client library: the JSON the Data Service answered
    a refused query with. From the database it is an object with [message],
    [details], [hint] and [code]; from anything else on the way it is
    whatever that sent, with a [message] or without. *)
Definition PostgrestError : Type := Value.

(** [if (error)]: the error when there is one and it is truthy. *)
Definition raised (error : option PostgrestError) : option PostgrestError :=
  match error with
  | Some e => if truthy e then Some e else None
  | None => None
  end.

(** [error.message] at line 24. It is read of a truthy value only, and such
    a value is not [null] or [undefined], so the read does not throw; an
    error without the property gives [undefined]. *)
Definition message (e : PostgrestError) : Value :=
  match get e "message" with
  | Ok m => m
  | Throw _ => Undefined
  end.

(** An object literal as [res.json] writes it: [JSON.stringify] leaves out
    a property whose value is [undefined]. (The values read off the Data
    Service are parsed JSON and hold no [undefined]; only a property read
    gives one.) *)
Definition json_object (props : list (string * Value)) : Value :=
  Obj (filter (fun p => match snd p with Undefined => false | _ => true end) props).

(** [{ data, error }]: [error] is [null] ([None]) on success. *)
Record QueryResult : Type := mkResult {
  data : Value;
  error : option PostgrestError
}.

(** The Data Service is outside the repository: all the route knows of it
    is that a query gives a result. *)
Definition DataService : Type := Query -> QueryResult.

(** *** Express *)

(** The part of the incoming request a handler could look at. *)
Record Request : Type := mkRequest {
  req_url : string;
  req_headers : list (string * string);
  req_query : list (string * string);
  req_body : Value
}.

(** [res]: the status code (200 until [res.status] changes it) and the
    body once [res.json] has sent it. *)
Record Response : Type := mkResponse {
  statusCode : Z;
  body : option Value
}.

Definition res0 : Response := {| statusCode := 200; body := None |}.

Definition res_status (c : Z) (res : Response) : Response :=
  {| statusCode := c; body := body res |}.

Definition res_json (v : Value) (res : Response) : Response :=
  {| statusCode := statusCode res; body := Some v |}.

(** What [console.log] has been given, oldest first: the only thing the
    process keeps from one request to the next. *)
Inductive LogEntry : Type :=
| LogError (e : PostgrestError)
| LogData (d : Value).

Definition Console : Type := list LogEntry.

(** *** The route *)

Definition TABLE : string := "scrapedata".

(** The query of line 20. *)
Definition api_query : Query :=
  order "DA_Number" false (select "*" (from TABLE)).

(** [app.get("/api/data", async (req, res) => ...)]: the handler, run
    against the Data Service [supabase], for the request [req], with the
    console as it stands; it gives the console afterwards and the response
    sent. *)
Definition api_data (supabase : DataService) (req : Request) (console : Console)
  : Console * Response :=
  let r := supabase api_query in
  match raised (error r) with
  | Some e =>
      (console ++ [LogError e],
       res_json (json_object [("error", message e)]) (res_status 500 res0))
  | None =>
      (console ++ [LogData (data r)],
       res_json (data r) res0)
  end.

Definition response_of (supabase : DataService) (req : Request) (console : Console)
  : Response :=
  snd (api_data supabase req console).

(** *** Reading a response as DA records *)

(** The twelve columns of a DA record. *)
Definition DA_FIELDS : list string :=
  ["DA_Number"; "Detail_URL"; "Description"; "Submitted_Date"; "Decision";
   "Categories"; "Property_Address"; "Applicant"; "Progress"; "Fees";
   "Documents"; "Contact_Council"].

(** The property names of an object, in order ([Object.keys]). *)
Definition keys (v : Value) : list string :=
  match v with
  | Obj props => map fst props
  | _ => []
  end.

Definition is_object (v : Value) : bool :=
  match v with
  | Obj _ => true
  | _ => false
  end.

(** The number in column [col] of a row, when it has one. *)
Definition number_at (col : string) (row : Value) : option Z :=
  match get row col with
  | Ok (Num n) => Some n
  | _ => None
  end.

(** [in_order asc a b]: [a] may come before [b]. *)
Definition in_order (asc : bool) (a b : Z) : bool :=
  if asc then a <=? b else b <=? a.

(** [ordered col asc rows]: every row has a number in column [col], and
    each may come before the next one. *)
Fixpoint ordered (col : string) (asc : bool) (rows : list Value) : bool :=
  match rows with
  | [] => true
  | r :: rest =>
      match number_at col r with
      | None => false
      | Some a =>
          match rest with
          | [] => true
          | r' :: _ =>
              match number_at col r' with
              | Some b => in_order asc a b && ordered col asc rest
              | None => false
              end
          end
      end
  end.

(** Ordered by [DA_Number], largest first. *)
Definition descending (rows : list Value) : bool :=
  ordered "DA_Number" false rows.

(** [ordered_as o rows]: [rows] are in the order the query asked for. *)
Definition ordered_as (o : option (string * bool)) (rows : list Value) : bool :=
  match o with
  | None => true
  | Some (col, asc) => ordered col asc rows
  end.

(** A Data Service honours the ordering of a query when the rows of every
    successful answer are in the order the query asked for. *)
Definition honours_order (supabase : DataService) : Prop :=
  forall q rows,
    supabase q = {| data := Arr rows; error := None |} ->
    ordered_as (q_order q) rows = true.

(** [has_fields fs row]: [row] is an object whose properties are the
    names of [fs], each once. *)
Definition has_fields (fs : list string) (row : Value) : bool :=
  is_object row
  && (length (keys row) =? length fs)%nat
  && forallb (fun f => existsb (String.eqb f) (keys row)) fs
  && forallb (fun k => existsb (String.eqb k) fs) (keys row).

(** A DA record as section 3 of the specification has it: exactly the
    twelve columns. *)
Definition is_da_record (row : Value) : bool := has_fields DA_FIELDS row.

(** The [DA_Number] of each row, as [row.DA_Number] reads it. *)
Definition da_numbers (rows : list Value) : list (result Value) :=
  map (fun r => get r "DA_Number") rows.

(** The rows as section 8 wants them: DA records, no [DA_Number] twice. *)
Definition da_table (rows : list Value) : Prop :=
  Forall (fun row => is_da_record row = true) rows /\ NoDup (da_numbers rows).

End Backend.

(** ** The Presentation Client: the React component [App] *)

Module Frontend.

(** *** React elements *)

(** What JSX evaluates to: an element with its tag, [key], props and
    children, or a JavaScript value standing as a child (JSX text is the
    string it spells). *)
Inductive Node : Type :=
| Elem (tag : string) (key : option Value) (props : list (string * Value))
       (children : list Node)
| Child (v : Value).

Definition tag_of (n : Node) : string :=
  match n with
  | Elem t _ _ _ => t
  | Child _ => ""
  end.

Definition children_of (n : Node) : list Node :=
  match n with
  | Elem _ _ _ cs => cs
  | Child _ => []
  end.

Definition prop_of (name : string) (n : Node) : option Value :=
  match n with
  | Elem _ _ ps _ => lookup name ps
  | Child _ => None
  end.

Definition has_tag (t : string) (n : Node) : bool := (tag_of n =? t)%string.

(** The children of [n] that are [t] elements (the selector [n > t]). *)
Definition select_children (t : string) (n : Node) : list Node :=
  filter (has_tag t) (children_of n).

(** Every [t] element of the tree, in document order. *)
Fixpoint select_all (t : string) (n : Node) : list Node :=
  match n with
  | Elem t' _ _ cs =>
      (if (t' =? t)%string then [n] else []) ++ flat_map (select_all t) cs
  | Child _ => []
  end.

(** The text React puts in the document for a value used as a child:
    strings and numbers as they read, nothing for [null], [undefined] and
    booleans, the items of an array one after the other; an object is
    refused. *)
Fixpoint value_text (v : Value) : result string :=
  match v with
  | Str s => Ok s
  | Num n => Ok (num_to_string n)
  | Undefined | Null | Bool _ => Ok ""
  | Arr items =>
      fold_right (fun item acc => s <- value_text item ;; t <- acc ;; Ok (s ++ t)%string)
                 (Ok "") items
  | Obj _ => Throw "Objects are not valid as a React child"
  end.

(** The visible text of a tree ([textContent]). *)
Fixpoint text_of (n : Node) : result string :=
  match n with
  | Child v => value_text v
  | Elem _ _ _ cs =>
      fold_right (fun c acc => s <- text_of c ;; t <- acc ;; Ok (s ++ t)%string)
                 (Ok "") cs
  end.

(** A hyperlink: an [a] element whose [href] holds a value ([null] and
    [undefined] leave the attribute out). *)
Definition is_link (n : Node) : bool :=
  has_tag "a" n
  && match prop_of "href" n with
     | None | Some Undefined | Some Null => false
     | Some _ => true
     end.

(** It opens outside the page: [target="_blank"]. *)
Definition is_external (n : Node) : bool :=
  match prop_of "target" n with
  | Some (Str t) => (t =? "_blank")%string
  | _ => false
  end.

(** The hyperlinks of a tree. *)
Definition links (n : Node) : list Node := filter is_link (select_all "a" n).

(** *** The component *)

Definition API_URL : string := "http://localhost:5000/api/data".

Definition COLUMNS : list string :=
  ["DA Number"; "Detail URL"; "Description"; "Submitted Date"; "Decision";
   "Categories"; "Property Address"; "Applicant"; "Progress"; "Fees";
   "Documents"; "Contact Council"].

Definition th (label : string) : Node := Elem "th" None [] [Child (Str label)].

(** [<td>{v}</td>] *)
Definition td (v : Value) : Node := Elem "td" None [] [Child v].

(** [<a href={url} target="_blank" rel="noreferrer">...</a>] *)
Definition anchor (url : Value) (content : Node) : Node :=
  Elem "a" None
       [("href", url); ("target", Str "_blank"); ("rel", Str "noreferrer")]
       [content].

(** Lines 42-46. *)
Definition detail_url_cell (detail_url : Value) : Node :=
  Elem "td" None [] [anchor detail_url (Child detail_url)].

(** The test of line 58:
    [row.Documents && row.Documents !== "Not available"]. *)
Definition documents_test (documents : Value) : Value :=
  and_ documents (Bool (negb (strict_eq_str documents "Not available"))).

(** Lines 57-65. *)
Definition documents_cell (documents : Value) : Node :=
  Elem "td" None []
       [if truthy (documents_test documents)
        then anchor documents (Child (Str "View Documents"))
        else Child (Str "Not available")].

(** The arrow function of [rows.map], lines 38-69. *)
Definition row_view (row : Value) : result Node :=
  da_number <- get row "DA_Number" ;;
  detail_url <- get row "Detail_URL" ;;
  description <- get row "Description" ;;
  submitted_date <- get row "Submitted_Date" ;;
  decision <- get row "Decision" ;;
  categories <- get row "Categories" ;;
  property_address <- get row "Property_Address" ;;
  applicant <- get row "Applicant" ;;
  progress <- get row "Progress" ;;
  fees <- get row "Fees" ;;
  documents <- get row "Documents" ;;
  contact_council <- get row "Contact_Council" ;;
  Ok (Elem "tr" (Some da_number) []
        [td da_number;
         detail_url_cell detail_url;
         td description;
         td submitted_date;
         td decision;
         td categories;
         td property_address;
         td applicant;
         td progress;
         td fees;
         documents_cell documents;
         td contact_council]).

(** [rows.map(f)]: only an array has [map]. *)
Definition array_map {B} (f : Value -> result B) (rows : Value) : result (list B) :=
  match rows with
  | Arr items => mapM f items
  | Undefined => Throw "Cannot read properties of undefined"
  | Null => Throw "Cannot read properties of null"
  | _ => Throw "rows.map is not a function"
  end.

(** What [App] returns for the current [rows], lines 15-73. *)
Definition App_view (rows : Value) : result Node :=
  trs <- array_map row_view rows ;;
  Ok (Elem "div" None [("className", Str "container")]
        [Elem "h1" None [] [Child (Str "Scraped Data")];
         Elem "table" None [("className", Str "styled-table")]
           [Elem "thead" None [] [Elem "tr" None [] (map th COLUMNS)];
            Elem "tbody" None [] trs]]).

(** The rows of the table's head and of its body ([table > thead > tr],
    [table > tbody > tr]). *)
Definition table_rows (section : string) (tree : Node) : list Node :=
  flat_map (select_children "tr")
    (flat_map (select_children section) (select_children "table" tree)).

Definition header_rows (tree : Node) : list Node := table_rows "thead" tree.
Definition data_rows (tree : Node) : list Node := table_rows "tbody" tree.

(** The [i]-th cell of a table row, and where the two link columns stand
    among [COLUMNS]. *)
Definition cell (i : nat) (tr : Node) : option Node := nth_error (children_of tr) i.

Definition DETAIL_URL_COLUMN : nat := 1.
Definition DOCUMENTS_COLUMN : nat := 10.

(** The link a cell with a document shows. *)
Definition documents_link (documents : Value) : Node :=
  anchor documents (Child (Str "View Documents")).

(** *** axios *)

(** How a request can end on the wire. *)
Inductive Outcome : Type :=
| NoResponse (reason : string)
| Responded (status : Z) (payload : Value).

Record AxiosResponse : Type := mkAxiosResponse {
  res_status : Z;
  res_data : Value
}.

Record AxiosError : Type := mkAxiosError {
  err_message : string;
  err_response : option AxiosResponse
}.

(** The default [validateStatus] of axios. *)
Definition validateStatus (status : Z) : bool :=
  (200 <=? status) && (status <? 300).

(** How the promise of [axios.get] settles: fulfilled with the response
    when the status is accepted, rejected otherwise and when no response
    came. *)
Definition settle (o : Outcome) : AxiosResponse + AxiosError :=
  match o with
  | NoResponse reason =>
      inr {| err_message := reason; err_response := None |}
  | Responded status payload =>
      let res := {| res_status := status; res_data := payload |} in
      if validateStatus status then inl res
      else inr {| err_message := "Request failed with status code " ++ num_to_string status;
                  err_response := Some res |}
  end.

(** A fetch that failed: the promise is rejected. *)
Definition failed (o : Outcome) : bool :=
  match settle o with
  | inl _ => false
  | inr _ => true
  end.

(** *** The mounted component *)

(** The component between two events: the [rows] of [useState], the
    dependency array [useEffect] recorded at the last commit ([None] before
    the first one), the requests issued so far and how many of them have
    not settled, what [console.error] was given, and what is on screen
    ([None] before the first render; an exception thrown while rendering
    takes the whole tree down). *)
Record AppState : Type := mkState {
  rows : Value;
  effect_deps : option (list Value);
  requests : list string;
  in_flight : nat;
  console : list AxiosError;
  screen : option (result Node);
  mounted : bool
}.

Definition initial : AppState :=
  {| rows := Arr [];
     effect_deps := None;
     requests := [];
     in_flight := 0;
     console := [];
     screen := None;
     mounted := true |}.

(** [Object.is] on the values a dependency array can hold here: arrays and
    objects are compared by identity, so a fresh one is never the same. *)
Definition same_value (a b : Value) : bool :=
  match a, b with
  | Undefined, Undefined | Null, Null => true
  | Bool x, Bool y => Bool.eqb x y
  | Num x, Num y => x =? y
  | Str x, Str y => (x =? y)%string
  | _, _ => false
  end.

(** React runs an effect after the first commit, and after a later one
    when some dependency is not the same as at the commit before. *)
Fixpoint deps_differ (old new : list Value) : bool :=
  match old, new with
  | a :: old', b :: new' => negb (same_value a b) || deps_differ old' new'
  | _, _ => false
  end.

Definition effect_due (recorded : option (list Value)) (deps : list Value) : bool :=
  match recorded with
  | None => true
  | Some old => deps_differ old deps
  end.

(** The effect of lines 8-13 sends the request. *)
Definition send_request (st : AppState) : AppState :=
  {| rows := rows st;
     effect_deps := effect_deps st;
     requests := requests st ++ [API_URL];
     in_flight := S (in_flight st);
     console := console st;
     screen := screen st;
     mounted := mounted st |}.

(** [useEffect(effect, deps)] at commit time. *)
Definition useEffect (effect : AppState -> AppState) (deps : list Value)
  (st : AppState) : AppState :=
  let st' := if effect_due (effect_deps st) deps then effect st else st in
  {| rows := rows st';
     effect_deps := Some deps;
     requests := requests st';
     in_flight := in_flight st';
     console := console st';
     screen := screen st';
     mounted := mounted st' |}.

(** What React makes of the tree [App] returned: the tree, unless a child
    of it cannot be rendered. *)
Definition paint (view : result Node) : result Node :=
  tree <- view ;;
  _ <- text_of tree ;;
  Ok tree.

(** One render of [App] and its commit. *)
Definition render (st : AppState) : AppState :=
  if mounted st then
    match paint (App_view (rows st)) with
    | Ok tree =>
        useEffect send_request []
          {| rows := rows st;
             effect_deps := effect_deps st;
             requests := requests st;
             in_flight := in_flight st;
             console := console st;
             screen := Some (Ok tree);
             mounted := true |}
    | Throw msg =>
        {| rows := rows st;
           effect_deps := effect_deps st;
           requests := requests st;
           in_flight := in_flight st;
           console := console st;
           screen := Some (Throw msg);
           mounted := false |}
    end
  else st.

(** [setRows(v)]: the state is replaced and [App] renders again. *)
Definition setRows (v : Value) (st : AppState) : AppState :=
  render
    {| rows := v;
       effect_deps := effect_deps st;
       requests := requests st;
       in_flight := in_flight st;
       console := console st;
       screen := screen st;
       mounted := mounted st |}.

Definition console_error (err : AxiosError) (st : AppState) : AppState :=
  {| rows := rows st;
     effect_deps := effect_deps st;
     requests := requests st;
     in_flight := in_flight st;
     console := console st ++ [err];
     screen := screen st;
     mounted := mounted st |}.

(** [.then((res) => setRows(res.data)).catch((err) => console.error(err))] *)
Definition then_catch (p : AxiosResponse + AxiosError) (st : AppState) : AppState :=
  match p with
  | inl res => setRows (res_data res) st
  | inr err => console_error err st
  end.

(** What can happen after the page has loaded: [App] renders again (its
    own state changed, or its parent rendered), or a request in flight
    ends. *)
Inductive Event : Type :=
| Rerender
| Settle (o : Outcome).

Definition step (st : AppState) (ev : Event) : AppState :=
  match ev with
  | Rerender => render st
  | Settle o =>
      match in_flight st with
      | O => st
      | S n =>
          then_catch (settle o)
            {| rows := rows st;
               effect_deps := effect_deps st;
               requests := requests st;
               in_flight := n;
               console := console st;
               screen := screen st;
               mounted := mounted st |}
      end
  end.

(** The page load: the first render of [App]. *)
Definition page_load : AppState := render initial.

Definition run (st : AppState) (evs : list Event) : AppState :=
  fold_left step evs st.

(** A settled component: the effect has run, its one request was sent and
    is not in flight any more. *)
Definition settled (st : AppState) : Prop :=
  in_flight st = 0%nat /\ effect_deps st = Some [] /\ requests st = [API_URL].

End Frontend.

(** ** Sample data *)

Module Samples.

(** A DA record with the twelve columns. *)
Definition da_record (n : Z) (documents : Value) : Value :=
  Obj [("DA_Number", Num n);
       ("Detail_URL", Str "https://example.com/da/123");
       ("Description", Str "Dwelling");
       ("Submitted_Date", Str "2024-05-01");
       ("Decision", Str "Approved");
       ("Categories", Str "Residential");
       ("Property_Address", Str "1 Main St, Nowra");
       ("Applicant", Str "A. Citizen");
       ("Progress", Str "Determined");
       ("Fees", Str "$100");
       ("Documents", documents);
       ("Contact_Council", Str "council@example.com")].

Definition doc_url : Value := Str "https://example.com/doc.pdf".

(** A record as the table gives it when it has a thirteenth column. *)
Definition wide_record (n : Z) : Value :=
  match da_record n doc_url with
  | Obj props => Obj (("id", Num 1) :: props)
  | v => v
  end.

Definition rows_539 : list Value :=
  [da_record 5 doc_url; da_record 3 doc_url; da_record 9 doc_url].

Definition rows_953 : list Value :=
  [da_record 9 doc_url; da_record 5 doc_url; da_record 3 doc_url].

Definition rows_359 : list Value := rev rows_953.

Definition succeed (rows : list Value) : Backend.QueryResult :=
  {| Backend.data := Arr rows; Backend.error := None |}.

Definition timeout_error : Backend.PostgrestError :=
  Obj [("code", Str "57014");
       ("details", Null);
       ("hint", Null);
       ("message", Str "canceling statement due to statement timeout")].

(** The error the client hands back when a gateway on the way answers 502
    with a JSON body of its own: an object with no [message]. *)
Definition gateway_error : Backend.PostgrestError :=
  Obj [("foo", Str "bar")].

(** A Data Service behind such a gateway. *)
Definition unreachable_service : Backend.DataService :=
  fun _ => {| Backend.data := Null; Backend.error := Some gateway_error |}.

(** A Data Service that answers every query with the rows 5, 3, 9, in
    that order. *)
Definition unordered_service : Backend.DataService :=
  fun _ => succeed rows_539.

(** A Data Service over the records 9, 5, 3 that orders by [DA_Number] as
    asked, and refuses any other ordering. *)
Definition ordering_service : Backend.DataService :=
  fun q =>
    match Backend.q_order q with
    | None => succeed rows_953
    | Some (col, asc) =>
        if (col =? "DA_Number")%string
        then succeed (if asc then rows_359 else rows_953)
        else {| Backend.data := Null; Backend.error := Some timeout_error |}
    end.

(** A Data Service whose table has a column more and twice the same
    [DA_Number]. *)
Definition wide_service : Backend.DataService :=
  fun _ => succeed [wide_record 7; wide_record 7].


Definition plain_request : Backend.Request :=
  {| Backend.req_url := "/api/data";
     Backend.req_headers := [];
     Backend.req_query := [];
     Backend.req_body := Undefined |}.

Definition busy_request : Backend.Request :=
  {| Backend.req_url := "/api/data?limit=1&order=asc";
     Backend.req_headers := [("Origin", "https://elsewhere.example")];
     Backend.req_query := [("limit", "1"); ("order", "asc")];
     Backend.req_body := Obj [("DA_Number", Num 1)] |}.

(** Rows for the table: with a document link, with the sentinel, and with
    no usable [Documents]. *)
Definition table_rows : list Value :=
  [da_record 9 doc_url;
   da_record 5 (Str "Not available");
   da_record 3 (Str "");
   da_record 2 Null;
   Obj [("DA_Number", Num 1); ("Detail_URL", Str "https://example.com/da/1")]].

End Samples.

(** ** The process behind the route *)

Module Server.

Import Backend.

(** [app.listen(5000, ...)] and the path of the route. *)
Definition PORT : Z := 5000.
Definition ROUTE : string := "/api/data".

(** What [console.log] receives for a result: the error object (line 23)
    or the rows (line 26). *)
Definition log_of (r : QueryResult) : LogEntry :=
  match raised (error r) with
  | Some e => LogError e
  | None => LogData (data r)
  end.

(** The process handling the calls of the route one after the other; each
    call comes with the Data Service as it answers at that time. The
    console goes from one call to the next, the responses are collected in
    the order of the calls. *)
Fixpoint serve (calls : list (DataService * Request)) (console : Console)
  : Console * list Response :=
  match calls with
  | [] => (console, [])
  | (supabase, req) :: rest =>
      let (console', res) := api_data supabase req console in
      let (console'', ress) := serve rest console' in
      (console'', res :: ress)
  end.

End Server.

(** ** Reading the rendered table *)

Module Table.

Import Frontend.

(** The [key] React is given for an element. *)
Definition key_of (n : Node) : option Value :=
  match n with
  | Elem _ k _ _ => k
  | Child _ => None
  end.

(** [row.f] as the arrow function of [rows.map] reads it for a row that is
    not [null] or [undefined]. *)
Definition field (f : string) (row : Value) : Value :=
  match get row f with
  | Ok v => v
  | Throw _ => Undefined
  end.

(** A row the arrow function can read. *)
Definition readable (row : Value) : bool :=
  match row with
  | Undefined | Null => false
  | _ => true
  end.

(** A value React can put in the document as a child. *)
Definition renderable (v : Value) : bool :=
  match value_text v with
  | Ok _ => true
  | Throw _ => false
  end.

(** The properties of a row that [App] reads, in the order of the columns,
    and those among them that are rendered as children: all but
    [Documents], which is only tested and used as an [href]. *)
Definition FIELDS : list string :=
  ["DA_Number"; "Detail_URL"; "Description"; "Submitted_Date"; "Decision";
   "Categories"; "Property_Address"; "Applicant"; "Progress"; "Fees";
   "Documents"; "Contact_Council"].

Definition SHOWN_FIELDS : list string :=
  filter (fun f => negb (f =? "Documents")%string) FIELDS.

(** The name of a property as a column label: underscores as spaces. *)
Fixpoint label_of (f : string) : string :=
  match f with
  | EmptyString => EmptyString
  | String c rest =>
      String (if Ascii.eqb c "_"%char then " "%char else c) (label_of rest)
  end.


(** A row the table can show: the arrow function can read it, and each
    property it renders as a child is renderable. *)
Definition showable (row : Value) : bool :=
  readable row && forallb (fun f => renderable (field f row)) SHOWN_FIELDS.

(** The cell of column [i] for the property [f] of [row]. *)
Definition cell_for (i : nat) (f : string) (row : Value) : Node :=
  if Nat.eqb i DETAIL_URL_COLUMN then detail_url_cell (field f row)
  else if Nat.eqb i DOCUMENTS_COLUMN then documents_cell (field f row)
  else td (field f row).

(** The attributes every link of the table is written with. *)
Definition opens_outside (a : Node) : bool :=
  has_tag "a" a
  && is_external a
  && match prop_of "rel" a with
     | Some (Str r) => (r =? "noreferrer")%string
     | _ => false
     end.

End Table.

(** ** Reading a history of the page *)

Module Lifecycle.

Import Frontend.

(** The outcome of the first request that ended in a history, if one
    did. *)
Fixpoint first_settle (evs : list Event) : option Outcome :=
  match evs with
  | [] => None
  | Rerender :: rest => first_settle rest
  | Settle o :: _ => Some o
  end.

(** [rows] and the console as the first outcome leaves them: the data of a
    fulfilled request, the error of a rejected one. *)
Definition rows_after (first : option Outcome) : Value :=
  match first with
  | Some o =>
      match settle o with
      | inl res => res_data res
      | inr _ => Arr []
      end
  | None => Arr []
  end.

Definition console_after (first : option Outcome) : list AxiosError :=
  match first with
  | Some o =>
      match settle o with
      | inl _ => []
      | inr err => [err]
      end
  | None => []
  end.

End Lifecycle.

(** ** From the route to the page *)

Module Wire.

(** A body that JSON text can carry: no [undefined] in it. *)
Fixpoint is_json (v : Value) : bool :=
  match v with
  | Undefined => false
  | Null | Bool _ | Num _ | Str _ => true
  | Arr items => forallb is_json items
  | Obj props => forallb (fun p => is_json (snd p)) props
  end.

(** What [axios.get] receives for a response the route sent with
    [res.json]: the status, and the body parsed back from its JSON text,
    which for a JSON value is the value. Nothing else is modelled. *)
Definition deliver (r : Backend.Response) : option Frontend.Outcome :=
  match Backend.body r with
  | Some b =>
      if is_json b then Some (Frontend.Responded (Backend.statusCode r) b) else None
  | None => None
  end.

(** The page once its request has been answered by the route, the Data
    Service being [supabase]. *)
Definition page_after (supabase : Backend.DataService) (req : Backend.Request)
  (console : Backend.Console) : option Frontend.AppState :=
  match deliver (Backend.response_of supabase req console) with
  | Some o => Some (Frontend.step Frontend.page_load (Frontend.Settle o))
  | None => None
  end.

End Wire.

(** ** The API Gateway: what the route answers *)

Module BackendProofs.

Import Backend.

(** The query the route sends: every column of [scrapedata], largest
    [DA_Number] first. *)
Lemma api_query_sent :
  api_query = {| q_table := "scrapedata"; q_columns := "*";
                 q_order := Some ("DA_Number", false) |}.
Proof. reflexivity. Qed.


Lemma api_data_on_success supabase req console :
  error (supabase api_query) = None ->
  api_data supabase req console =
    (console ++ [LogData (data (supabase api_query))],
     {| statusCode := 200; body := Some (data (supabase api_query)) |}).
Proof.
  intros He. unfold api_data. rewrite He. reflexivity.
Qed.

(** The response is a function of the query's result alone. *)
Lemma response_of_result supabase req console :
  response_of supabase req console =
    match raised (error (supabase api_query)) with
    | Some e => {| statusCode := 500; body := Some (json_object [("error", message e)]) |}
    | None => {| statusCode := 200; body := Some (data (supabase api_query)) |}
    end.
Proof.
  unfold response_of, api_data.
  destruct (raised (error (supabase api_query))); reflexivity.
Qed.

(** The body of a 500 answer: the message under [error] when the error has
    one, the empty object when it has none. *)
Lemma json_object_error m :
  json_object [("error", m)] =
    match m with
    | Undefined => Obj []
    | _ => Obj [("error", m)]
    end.
Proof. destruct m; reflexivity. Qed.

(** Reading the message of a truthy error does not throw. *)
Lemma truthy_message e : truthy e = true -> get e "message" = Ok (message e).
Proof.
  unfold message. destruct e; cbn; intros H; try discriminate H; reflexivity.
Qed.

(** [ordered] by [DA_Number], largest first, is [descending]. *)
Lemma ordered_as_api_query rows :
  ordered_as (q_order api_query) rows = descending rows.
Proof. reflexivity. Qed.

(** *** Ordering *)

Section Ordering.

Variable supabase : DataService.

(** C1, as amended. For every successful call to [GET /api/data] the route
    returns status 200 and, as its body, the array of the Data Service
    exactly as it came; the route asks the Data Service for [DA_Number]
    descending and does not sort, so the elements are in that order
    whenever the Data Service returns rows in the order it is asked for. *)
Theorem api_data_descending_when_service_orders req console rows :
  supabase api_query = {| data := Arr rows; error := None |} ->
  q_order api_query = Some ("DA_Number", false)
  /\ response_of supabase req console = {| statusCode := 200; body := Some (Arr rows) |}
  /\ (honours_order supabase -> descending rows = true).
Proof.
  intros Hq. split; [reflexivity |]. split.
  - rewrite response_of_result, Hq. reflexivity.
  - intros Horders. rewrite <- ordered_as_api_query. now apply Horders.
Qed.

End Ordering.

(** C1, as stated, fails: the route does not sort. When the Data Service
    returns the records 5, 3, 9 the route answers 200 with 5, 3, 9, which
    is neither descending nor the array 9, 5, 3. *)
Lemma api_data_keeps_service_order :
  response_of Samples.unordered_service Samples.plain_request [] =
    {| statusCode := 200; body := Some (Arr Samples.rows_539) |}
  /\ map (number_at "DA_Number") Samples.rows_539 = [Some 5; Some 3; Some 9]
  /\ descending Samples.rows_539 = false
  /\ body (response_of Samples.unordered_service Samples.plain_request [])
     <> Some (Arr Samples.rows_953).
Proof.
  repeat split; try reflexivity.
  cbn. intros H. inversion H.
Qed.

Lemma ordering_service_honours_order : honours_order Samples.ordering_service.
Proof.
  intros q rows. unfold Samples.ordering_service.
  destruct (q_order q) as [[col asc]|]; cbn [ordered_as].
  - destruct (String.eqb_spec col "DA_Number") as [->|Hne].
    + destruct asc; intros H; inversion H; subst; reflexivity.
    + intros H. discriminate H.
  - reflexivity.
Qed.

Lemma api_data_descending_when_service_orders_witness :
  response_of Samples.ordering_service Samples.plain_request [] =
    {| statusCode := 200; body := Some (Arr Samples.rows_953) |}
  /\ descending Samples.rows_953 = true.
Proof.
  destruct (api_data_descending_when_service_orders
              Samples.ordering_service Samples.plain_request [] Samples.rows_953
              eq_refl) as (_ & Hresponse & Hdescending).
  split; [exact Hresponse |].
  apply Hdescending, ordering_service_honours_order.
Defined.

(** *** Failure of the query *)




(** *** The shape of the rows *)

(** C5, as amended. For every successful call to [GET /api/data] the
    response is status 200 with the array of the Data Service as it came;
    so every element has exactly the twelve fields, and no [DA_Number]
    occurs twice, whenever that is so of the array the Data Service
    returned. *)
Theorem api_data_forwards_table supabase req console rows :
  supabase api_query = {| data := Arr rows; error := None |} ->
  response_of supabase req console = {| statusCode := 200; body := Some (Arr rows) |}
  /\ (forall out, body (response_of supabase req console) = Some (Arr out) -> out = rows)
  /\ (da_table rows ->
      exists out,
        body (response_of supabase req console) = Some (Arr out)
        /\ Forall (fun row => is_da_record row = true) out
        /\ NoDup (da_numbers out)).
Proof.
  intros Hq.
  assert (Hr : response_of supabase req console =
               {| statusCode := 200; body := Some (Arr rows) |})
    by (rewrite response_of_result, Hq; reflexivity).
  rewrite Hr. split; [reflexivity |]. split.
  - intros out [= <-]. reflexivity.
  - intros [Hrec Huniq]. exists rows. auto.
Qed.

Lemma rows_953_da_table : da_table Samples.rows_953.
Proof.
  split.
  - repeat constructor.
  - repeat constructor; cbn; intuition discriminate.
Qed.

Lemma api_data_forwards_table_witness :
  response_of Samples.ordering_service Samples.plain_request [] =
    {| statusCode := 200; body := Some (Arr Samples.rows_953) |}
  /\ exists out,
       body (response_of Samples.ordering_service Samples.plain_request []) = Some (Arr out)
       /\ Forall (fun row => is_da_record row = true) out
       /\ NoDup (da_numbers out).
Proof.
  destruct (api_data_forwards_table
              Samples.ordering_service Samples.plain_request [] Samples.rows_953
              eq_refl) as (Hresponse & _ & Htable).
  split; [exact Hresponse |].
  apply Htable, rows_953_da_table.
Defined.

(** C5, as stated, fails: the route forwards what [select("*")] gave. When
    the table has a thirteenth column and two rows with the same
    [DA_Number], so has the body of the 200 response. *)
Lemma api_data_forwards_any_rows :
  response_of Samples.wide_service Samples.plain_request [] =
    {| statusCode := 200;
       body := Some (Arr [Samples.wide_record 7; Samples.wide_record 7]) |}
  /\ length (keys (Samples.wide_record 7)) = 13%nat
  /\ is_da_record (Samples.wide_record 7) = false
  /\ ~ NoDup (da_numbers [Samples.wide_record 7; Samples.wide_record 7]).
Proof.
  repeat split.
  intros Hnodup. inversion Hnodup as [| x l Hnotin _]; subst.
  apply Hnotin. now left.
Qed.

(** *** Same result, same response *)



End BackendProofs.

(** ** The Presentation Client: what a row looks like *)

Module ViewProofs.

Import Frontend.

Lemma bind_Ok {A B} (r : result A) (k : A -> result B) b :
  bind r k = Ok b -> exists a, r = Ok a /\ k a = Ok b.
Proof.
  destruct r as [a | m]; cbn; intros H; [eauto | discriminate].
Qed.

Lemma mapM_Forall2 {A B} (f : A -> result B) xs ys :
  mapM f xs = Ok ys -> Forall2 (fun x y => f x = Ok y) xs ys.
Proof.
  revert ys. induction xs as [| x xs IH]; cbn; intros ys H.
  - injection H as <-. constructor.
  - apply bind_Ok in H as (y & Hy & H).
    apply bind_Ok in H as (ys' & Hys & H).
    injection H as <-. constructor; auto.
Qed.

(** A row that renders is a [tr] of twelve cells, the links in their
    columns. *)
Lemma row_view_cells row tr :
  row_view row = Ok tr ->
  exists detail_url documents,
    get row "Detail_URL" = Ok detail_url
    /\ get row "Documents" = Ok documents
    /\ tag_of tr = "tr"
    /\ length (children_of tr) = length COLUMNS
    /\ cell DETAIL_URL_COLUMN tr = Some (detail_url_cell detail_url)
    /\ cell DOCUMENTS_COLUMN tr = Some (documents_cell documents).
Proof.
  unfold row_view. intros H.
  destruct row; cbn [get bind] in H; try discriminate H;
    injection H as <-; do 2 eexists; repeat split; reflexivity.
Qed.

Lemma filter_all {A} (p : A -> bool) xs :
  Forall (fun x => p x = true) xs -> filter p xs = xs.
Proof.
  induction 1 as [| x xs Hx _ IH]; cbn; [reflexivity |].
  now rewrite Hx, IH.
Qed.

(** The body of the table holds the rows of the array, one [tr] each, in
    the array's order. *)
Lemma App_view_data_rows items tree :
  App_view (Arr items) = Ok tree ->
  Forall2 (fun row tr => row_view row = Ok tr) items (data_rows tree).
Proof.
  unfold App_view. intros H.
  apply bind_Ok in H as (trs & Hmap & H). injection H as <-.
  cbn [array_map] in Hmap. apply mapM_Forall2 in Hmap.
  assert (Htrs : filter (has_tag "tr") trs = trs).
  { apply filter_all. clear -Hmap.
    induction Hmap as [| row tr items trs Hrow _ IH]; constructor; auto.
    apply row_view_cells in Hrow as (? & ? & _ & _ & Htag & _).
    unfold has_tag. now rewrite Htag. }
  unfold data_rows, table_rows, select_children.
  cbn. rewrite Htrs, app_nil_r. exact Hmap.
Qed.

(** What holds of every row that renders holds of every row of the
    table. *)
Lemma every_row (P : Value -> Node -> Prop) :
  (forall row tr, row_view row = Ok tr -> P row tr) ->
  forall items tree,
    App_view (Arr items) = Ok tree -> Forall2 P items (data_rows tree).
Proof.
  intros HP items tree H. apply App_view_data_rows in H.
  induction H; constructor; auto.
Qed.

(** The head of the table is there whatever the rows. *)
Lemma App_view_header_rows rows tree :
  App_view rows = Ok tree ->
  header_rows tree = [Elem "tr" None [] (map th COLUMNS)].
Proof.
  unfold App_view. intros H.
  apply bind_Ok in H as (trs & _ & H). injection H as <-. reflexivity.
Qed.

(** The test of line 58, operator by operator. *)
Lemma strict_eq_str_true v lit : strict_eq_str v lit = true <-> v = Str lit.
Proof.
  destruct v; cbn; try (split; [discriminate | intros H; discriminate H]).
  rewrite String.eqb_eq. split; [now intros -> | now intros [= ->]].
Qed.

Lemma documents_test_truthy documents :
  truthy (documents_test documents) = true
  <-> truthy documents = true /\ documents <> Str "Not available".
Proof.
  unfold documents_test, and_.
  destruct (truthy documents) eqn:Ht; cbn [truthy].
  - rewrite negb_true_iff. split.
    + intros Hne. split; [reflexivity |]. intros Heq.
      apply strict_eq_str_true in Heq. congruence.
    + intros [_ Hne]. destruct (strict_eq_str documents "Not available") eqn:He; [| reflexivity].
      apply strict_eq_str_true in He. contradiction.
  - rewrite Ht. split; [discriminate | intros [H _]; discriminate H].
Qed.

Lemma truthy_is_link url content :
  truthy url = true -> is_link (anchor url content) = true.
Proof. destruct url; cbn; easy. Qed.

(** The two faces of the Documents cell. *)
Lemma documents_cell_link documents :
  truthy documents = true -> documents <> Str "Not available" ->
  documents_cell documents = Elem "td" None [] [documents_link documents]
  /\ links (documents_cell documents) = [documents_link documents]
  /\ text_of (documents_cell documents) = Ok "View Documents".
Proof.
  intros Ht Hne.
  assert (Hc : truthy (documents_test documents) = true)
    by now apply documents_test_truthy.
  unfold documents_cell. rewrite Hc. repeat split.
  unfold links. cbn [select_all flat_map anchor String.eqb Ascii.eqb Bool.eqb app].
  cbn [filter]. fold (anchor documents (Child (Str "View Documents"))).
  rewrite truthy_is_link by assumption. reflexivity.
Qed.

Lemma documents_cell_text documents :
  ~ (truthy documents = true /\ documents <> Str "Not available") ->
  documents_cell documents = td (Str "Not available")
  /\ links (documents_cell documents) = []
  /\ text_of (documents_cell documents) = Ok "Not available".
Proof.
  intros Hn.
  assert (Hc : truthy (documents_test documents) = false).
  { destruct (truthy (documents_test documents)) eqn:E; [| reflexivity].
    apply documents_test_truthy in E. contradiction. }
  unfold documents_cell. rewrite Hc. repeat split.
Qed.

Lemma documents_test_decide documents :
  {truthy documents = true /\ documents <> Str "Not available"}
  + {~ (truthy documents = true /\ documents <> Str "Not available")}.
Proof.
  destruct (truthy (documents_test documents)) eqn:E.
  - left. now apply documents_test_truthy.
  - right. intros H. apply documents_test_truthy in H. congruence.
Qed.

(** C3. In every rendered row the Documents cell holds a hyperlink exactly
    when the row's [Documents] is present (a truthy value: the test of
    line 58) and is not the string "Not available"; the hyperlink then has
    the label "View Documents" and the value as its [href]; otherwise the
    cell is the text "Not available", with no hyperlink. *)
Theorem documents_cell_link_iff items tree :
  App_view (Arr items) = Ok tree ->
  Forall2
    (fun row tr =>
       exists documents c,
         get row "Documents" = Ok documents
         /\ cell DOCUMENTS_COLUMN tr = Some c
         /\ ((exists a, In a (links c))
             <-> truthy documents = true /\ documents <> Str "Not available")
         /\ (truthy documents = true /\ documents <> Str "Not available" ->
             children_of c = [documents_link documents]
             /\ links c = [documents_link documents]
             /\ prop_of "href" (documents_link documents) = Some documents
             /\ text_of c = Ok "View Documents")
         /\ (~ (truthy documents = true /\ documents <> Str "Not available") ->
             children_of c = [Child (Str "Not available")]
             /\ links c = []
             /\ text_of c = Ok "Not available"))
    items (data_rows tree).
Proof.
  apply every_row. intros row tr Hrow.
  apply row_view_cells in Hrow as (url & documents & _ & Hdocs & _ & _ & _ & Hcell).
  exists documents, (documents_cell documents).
  split; [exact Hdocs |]. split; [exact Hcell |].
  split; [| split].
  - destruct (documents_test_decide documents) as [[Ht Hne] | Hn].
    + destruct (documents_cell_link documents Ht Hne) as (_ & Hl & _).
      rewrite Hl. split; [auto |]. intros _. eexists. now left.
    + destruct (documents_cell_text documents Hn) as (_ & Hl & _).
      rewrite Hl. split; [intros [a []] | intros H; contradiction].
  - intros [Ht Hne].
    destruct (documents_cell_link documents Ht Hne) as (Hc & Hl & Htext).
    rewrite Hc in *. repeat split; assumption.
  - intros Hn.
    destruct (documents_cell_text documents Hn) as (Hc & Hl & Htext).
    rewrite Hc in *. repeat split; assumption.
Qed.

Lemma documents_cell_link_iff_witness :
  exists tree,
    App_view (Arr Samples.table_rows) = Ok tree
    /\ Forall2
         (fun row tr =>
            exists documents c,
              get row "Documents" = Ok documents
              /\ cell DOCUMENTS_COLUMN tr = Some c
              /\ ((exists a, In a (links c))
                  <-> truthy documents = true /\ documents <> Str "Not available")
              /\ (truthy documents = true /\ documents <> Str "Not available" ->
                  children_of c = [documents_link documents]
                  /\ links c = [documents_link documents]
                  /\ prop_of "href" (documents_link documents) = Some documents
                  /\ text_of c = Ok "View Documents")
              /\ (~ (truthy documents = true /\ documents <> Str "Not available") ->
                  children_of c = [Child (Str "Not available")]
                  /\ links c = []
                  /\ text_of c = Ok "Not available"))
         Samples.table_rows (data_rows tree).
Proof.
  eexists. split; [reflexivity |].
  apply (documents_cell_link_iff Samples.table_rows). reflexivity.
Defined.

(** C9. In every rendered row whose [Documents] is falsy -- [null],
    [undefined] (which is what a row without the property gives) or the
    empty string among them -- the Documents cell is the text
    "Not available" and holds no hyperlink. *)
Theorem documents_cell_falsy items tree :
  App_view (Arr items) = Ok tree ->
  Forall2
    (fun row tr =>
       forall documents,
         get row "Documents" = Ok documents ->
         truthy documents = false ->
         cell DOCUMENTS_COLUMN tr = Some (td (Str "Not available"))
         /\ links (td (Str "Not available")) = []
         /\ text_of (td (Str "Not available")) = Ok "Not available")
    items (data_rows tree)
  /\ Forall (fun v => truthy v = false) [Null; Undefined; Str ""]
  /\ (forall props, lookup "Documents" props = None ->
        get (Obj props) "Documents" = Ok Undefined).
Proof.
  intros Hview. split; [| split].
  - revert items tree Hview. apply every_row. intros row tr Hrow documents Hdocs Hfalsy.
    apply row_view_cells in Hrow as (url & documents' & _ & Hdocs' & _ & _ & _ & Hcell).
    assert (documents' = documents) as -> by congruence.
    assert (Hn : ~ (truthy documents = true /\ documents <> Str "Not available"))
      by (intros [Ht _]; congruence).
    destruct (documents_cell_text documents Hn) as (Hc & Hl & Htext).
    rewrite Hc in *. repeat split; assumption.
  - repeat constructor.
  - intros props Hnone. cbn. now rewrite Hnone.
Qed.

Lemma documents_cell_falsy_witness :
  exists tree,
    App_view (Arr Samples.table_rows) = Ok tree
    /\ Forall2
         (fun row tr =>
            forall documents,
              get row "Documents" = Ok documents ->
              truthy documents = false ->
              cell DOCUMENTS_COLUMN tr = Some (td (Str "Not available"))
              /\ links (td (Str "Not available")) = []
              /\ text_of (td (Str "Not available")) = Ok "Not available")
         Samples.table_rows (data_rows tree).
Proof.
  eexists. split; [reflexivity |].
  apply (documents_cell_falsy Samples.table_rows). reflexivity.
Defined.

Lemma append_empty_r (s : string) : (s ++ "")%string = s.
Proof.
  induction s as [| c s IH]; cbn; [reflexivity | now rewrite IH].
Qed.

(** The Detail URL cell: one [a] element, the value as its [href] and as
    its only child. *)
Lemma detail_url_cell_string url :
  links (detail_url_cell (Str url)) = [anchor (Str url) (Child (Str url))]
  /\ is_external (anchor (Str url) (Child (Str url))) = true
  /\ prop_of "href" (anchor (Str url) (Child (Str url))) = Some (Str url)
  /\ text_of (detail_url_cell (Str url)) = Ok url.
Proof.
  repeat split. cbn. now rewrite !append_empty_r.
Qed.

(** C6. In every rendered row the Detail URL cell is an [a] element that
    opens in a new tab, with the row's [Detail_URL] as its [href] and as
    its only child; for a URL string it is a hyperlink whose visible text
    is the URL itself. *)
Theorem detail_url_cell_shows_url items tree :
  App_view (Arr items) = Ok tree ->
  Forall2
    (fun row tr =>
       exists detail_url c,
         get row "Detail_URL" = Ok detail_url
         /\ cell DETAIL_URL_COLUMN tr = Some c
         /\ children_of c = [anchor detail_url (Child detail_url)]
         /\ is_external (anchor detail_url (Child detail_url)) = true
         /\ (forall url, detail_url = Str url ->
               links c = [anchor detail_url (Child detail_url)]
               /\ prop_of "href" (anchor detail_url (Child detail_url)) = Some (Str url)
               /\ text_of c = Ok url))
    items (data_rows tree).
Proof.
  apply every_row. intros row tr Hrow.
  apply row_view_cells in Hrow as (detail_url & docs & Hurl & _ & _ & _ & Hcell & _).
  exists detail_url, (detail_url_cell detail_url).
  repeat split; try assumption.
  all: intros; subst detail_url; apply detail_url_cell_string.
Qed.

Lemma detail_url_cell_shows_url_witness :
  exists tree,
    App_view (Arr Samples.table_rows) = Ok tree
    /\ Forall2
         (fun row tr =>
            exists detail_url c,
              get row "Detail_URL" = Ok detail_url
              /\ cell DETAIL_URL_COLUMN tr = Some c
              /\ children_of c = [anchor detail_url (Child detail_url)]
              /\ is_external (anchor detail_url (Child detail_url)) = true
              /\ (forall url, detail_url = Str url ->
                    links c = [anchor detail_url (Child detail_url)]
                    /\ prop_of "href" (anchor detail_url (Child detail_url)) = Some (Str url)
                    /\ text_of c = Ok url))
         Samples.table_rows (data_rows tree).
Proof.
  eexists. split; [reflexivity |].
  apply (detail_url_cell_shows_url Samples.table_rows). reflexivity.
Defined.

(** The two rows of the specification's examples, as they render. *)
Example documents_cell_examples :
  documents_cell (Str "https://example.com/doc.pdf") =
    Elem "td" None []
      [Elem "a" None
         [("href", Str "https://example.com/doc.pdf");
          ("target", Str "_blank"); ("rel", Str "noreferrer")]
         [Child (Str "View Documents")]]
  /\ documents_cell (Str "Not available") = Elem "td" None [] [Child (Str "Not available")]
  /\ documents_cell (Str "") = Elem "td" None [] [Child (Str "Not available")]
  /\ text_of (detail_url_cell (Str "https://example.com/da/123")) =
     Ok "https://example.com/da/123".
Proof. repeat split. Qed.

End ViewProofs.

(** ** The Presentation Client: the fetch and the state *)

Module ClientProofs.

Import Frontend.

(** Rendering never touches [rows] or the console. *)
Lemma render_rows st : rows (render st) = rows st.
Proof.
  unfold render. destruct (mounted st); [| reflexivity].
  destruct (paint (App_view (rows st))); [| reflexivity].
  unfold useEffect. cbn. destruct (effect_due (effect_deps st) []); reflexivity.
Qed.

Lemma render_console st : console (render st) = console st.
Proof.
  unfold render. destruct (mounted st); [| reflexivity].
  destruct (paint (App_view (rows st))); [| reflexivity].
  unfold useEffect. cbn. destruct (effect_due (effect_deps st) []); reflexivity.
Qed.

(** With the empty dependency array recorded, the effect is not due
    again. *)
Lemma effect_not_due_again : effect_due (Some []) [] = false.
Proof. reflexivity. Qed.

(** Once the effect has run, a render sends nothing. *)
Lemma render_after_mount st :
  effect_deps st = Some [] ->
  effect_deps (render st) = Some []
  /\ requests (render st) = requests st
  /\ in_flight (render st) = in_flight st.
Proof.
  intros Hdeps. unfold render. destruct (mounted st); [| auto].
  destruct (paint (App_view (rows st))); [| auto].
  unfold useEffect. cbn. rewrite Hdeps, effect_not_due_again. auto.
Qed.

(** What is on screen after a render of a mounted component. *)
Lemma render_screen st :
  mounted st = true -> screen (render st) = Some (paint (App_view (rows st))).
Proof.
  intros Hm. unfold render. rewrite Hm.
  destruct (paint (App_view (rows st))); [| reflexivity].
  unfold useEffect. cbn. destruct (effect_due (effect_deps st) []); reflexivity.
Qed.

Lemma paint_Ok view tree : paint view = Ok tree -> view = Ok tree.
Proof.
  unfold paint. destruct view as [t | m]; cbn; [| discriminate].
  destruct (text_of t); cbn; [| discriminate]. now intros [= ->].
Qed.

(** The page as it loads: the empty table on screen, and the one request
    on its way. *)
Lemma page_load_state :
  rows page_load = Arr []
  /\ effect_deps page_load = Some []
  /\ requests page_load = [API_URL]
  /\ in_flight page_load = 1%nat
  /\ console page_load = []
  /\ screen page_load = Some (App_view (Arr []))
  /\ mounted page_load = true.
Proof. repeat split. Qed.

Lemma render_page_load : render page_load = page_load.
Proof. reflexivity. Qed.

(** A settled component stays settled. *)
Lemma step_settled st ev : settled st -> settled (step st ev).
Proof.
  intros (Hfl & Hdeps & Hreq). destruct ev as [| o]; cbn [step].
  - destruct (render_after_mount st Hdeps) as (H1 & H2 & H3).
    repeat split; congruence.
  - rewrite Hfl. repeat split; assumption.
Qed.

Lemma step_page_load ev : step page_load ev = page_load \/ settled (step page_load ev).
Proof.
  destruct ev as [| o]; cbn [step].
  - left. apply render_page_load.
  - right. change (in_flight page_load) with 1%nat. cbv iota.
    destruct (settle o) as [res | err]; cbn [then_catch].
    + unfold setRows.
      match goal with |- settled (render ?s) =>
        destruct (render_after_mount s eq_refl) as (H1 & H2 & H3) end.
      repeat split; [rewrite H3 | rewrite H1 | rewrite H2]; reflexivity.
    + repeat split.
Qed.

Lemma run_settled evs : forall st, settled st -> settled (run st evs).
Proof.
  induction evs as [| ev evs IH]; intros st Hst; cbn; [exact Hst |].
  apply IH. now apply step_settled.
Qed.

(** After the page load the state is either the page as it loaded, the
    request still in flight, or a settled one. *)
Lemma run_page_load evs : run page_load evs = page_load \/ settled (run page_load evs).
Proof.
  induction evs as [| ev evs IH] using rev_ind; [now left |].
  unfold run in *. rewrite fold_left_app. cbn [fold_left].
  destruct IH as [-> | Hs].
  - apply step_page_load.
  - right. now apply step_settled.
Qed.

(** While the request is in flight nothing has changed since the load. *)
Lemma in_flight_page_load evs :
  in_flight (run page_load evs) <> 0%nat -> run page_load evs = page_load.
Proof.
  intros Hfl. destruct (run_page_load evs) as [H | (H & _)]; [exact H | contradiction].
Qed.

(** With nothing in flight, [rows] stay as they are. *)
Lemma run_settled_rows evs : forall st, settled st -> rows (run st evs) = rows st.
Proof.
  induction evs as [| ev evs IH]; intros st Hst; [reflexivity |].
  change (run st (ev :: evs)) with (run (step st ev) evs).
  rewrite IH by now apply step_settled.
  destruct ev as [| o]; cbn [step].
  - apply render_rows.
  - destruct Hst as (-> & _). reflexivity.
Qed.

(** A fetch fails when no response came or the status is outside
    200..299. *)
Lemma failed_iff o :
  failed o = true
  <-> (exists reason, o = NoResponse reason)
      \/ (exists status payload,
            o = Responded status payload /\ (status < 200 \/ 300 <= status)).
Proof.
  unfold failed, settle, validateStatus. destruct o as [reason | status payload].
  - split; [intros _; left; eauto | reflexivity].
  - destruct (200 <=? status) eqn:Hlo; destruct (status <? 300) eqn:Hhi; cbn;
      (split; [intros H | intros [[r Hr] | (s & p & [= -> ->] & Hs)]]);
      try discriminate; try reflexivity;
      try (right; exists status, payload; split; [reflexivity | lia]);
      lia.
Qed.

(** *** The fetch happens once *)

(** C8. Nothing is requested before the mount; the mount issues the one
    [GET] of the route; and whatever happens afterwards -- renders of [App],
    the request ending well or badly, the update of [rows] that follows --
    the requests issued are still that one. *)
Theorem fetch_issued_once evs :
  requests initial = []
  /\ requests page_load = [API_URL]
  /\ requests (run page_load evs) = [API_URL]
  /\ (forall ev, requests (step (run page_load evs) ev) = requests (run page_load evs)).
Proof.
  assert (Hall : forall l, requests (run page_load l) = [API_URL]).
  { intros l. destruct (run_page_load l) as [-> | (_ & _ & Hreq)]; [reflexivity | exact Hreq]. }
  repeat split; try apply Hall.
  intros ev.
  change (step (run page_load evs) ev) with (fold_left step [ev] (fold_left step evs page_load)).
  rewrite <- fold_left_app. fold (run page_load (evs ++ [ev])).
  now rewrite !Hall.
Qed.

(** *** A fetch that succeeds *)

(** C7. When the request ends with an accepted status, [rows] becomes the
    [data] of the response, whatever it is; when that is an array and the
    table renders, its body has one row per element, in the order of the
    array. *)
Theorem rows_replaced_by_response evs status payload :
  in_flight (run page_load evs) <> 0%nat ->
  validateStatus status = true ->
  let st' := step (run page_load evs) (Settle (Responded status payload)) in
  rows st' = payload
  /\ (forall items tree,
        payload = Arr items -> screen st' = Some (Ok tree) ->
        Forall2 (fun row tr => row_view row = Ok tr) items (data_rows tree)).
Proof.
  intros Hfl Hok st'. subst st'.
  rewrite (in_flight_page_load evs Hfl).
  cbn [step]. change (in_flight page_load) with 1%nat. cbv iota.
  unfold settle. rewrite Hok. cbn [then_catch res_data]. unfold setRows.
  split.
  - now rewrite render_rows.
  - intros items tree -> Hscreen.
    rewrite render_screen in Hscreen by reflexivity.
    cbn [rows] in Hscreen. injection Hscreen as Hpaint.
    apply paint_Ok in Hpaint. now apply ViewProofs.App_view_data_rows.
Qed.

Lemma rows_replaced_by_response_witness :
  rows (step (run page_load [Rerender]) (Settle (Responded 200 (Arr Samples.rows_539))))
  = Arr Samples.rows_539.
Proof.
  apply (rows_replaced_by_response [Rerender] 200 (Arr Samples.rows_539)).
  - cbn. discriminate.
  - reflexivity.
Defined.

(** *** A fetch that fails *)

(** C4. When the request fails -- no response, or a status outside 2xx --
    [rows] is what it was before, the empty array of the page load, and
    stays so; the error goes to [console.error]; and the screen is
    unchanged: the table with its header row and no data row, no text but
    the heading and the column labels. *)
Theorem failed_fetch_keeps_rows evs o :
  in_flight (run page_load evs) <> 0%nat ->
  failed o = true ->
  let st := run page_load evs in
  let st' := step st (Settle o) in
  rows st' = rows st
  /\ rows st' = Arr []
  /\ (forall later, rows (run st' later) = Arr [])
  /\ (exists err, settle o = inr err /\ console st' = console st ++ [err])
  /\ screen st' = screen st
  /\ exists tree,
       screen st' = Some (Ok tree)
       /\ header_rows tree = [Elem "tr" None [] (map th COLUMNS)]
       /\ data_rows tree = []
       /\ text_of tree = Ok ("Scraped Data" ++ String.concat "" COLUMNS)%string.
Proof.
  intros Hfl Hfailed st st'. subst st st'.
  rewrite (in_flight_page_load evs Hfl).
  cbn [step]. change (in_flight page_load) with 1%nat. cbv iota.
  unfold failed in Hfailed.
  destruct (settle o) as [res | err]; [discriminate Hfailed |].
  cbn [then_catch].
  split; [reflexivity |]. split; [reflexivity |]. split.
  - intros later. now rewrite run_settled_rows by (repeat split).
  - split; [exists err; split; reflexivity |].
    split; [reflexivity |].
    eexists. repeat split.
Qed.

Lemma failed_fetch_keeps_rows_witness :
  rows (step (run page_load []) (Settle (Responded 500 (Obj [("error", Str "boom")]))))
  = rows (run page_load []).
Proof.
  apply (failed_fetch_keeps_rows [] (Responded 500 (Obj [("error", Str "boom")]))).
  - cbn. discriminate.
  - reflexivity.
Defined.

(** The two kinds of failure, and a success, as axios settles them. *)
Example settle_examples :
  failed (NoResponse "Network Error") = true
  /\ failed (Responded 500 (Obj [("error", Str "boom")])) = true
  /\ failed (Responded 404 Null) = true
  /\ failed (Responded 199 Null) = true
  /\ failed (Responded 300 Null) = true
  /\ failed (Responded 200 (Arr [])) = false
  /\ failed (Responded 299 (Arr [])) = false.
Proof. repeat split. Qed.

End ClientProofs.

(** ** The process behind the route: its console and its answers *)

Module ServerProofs.

Import Backend Server.

(** One call: one line more on the console, the answer of a fresh
    process. *)
Lemma api_data_log supabase req console :
  api_data supabase req console =
    (console ++ [log_of (supabase api_query)], response_of supabase req []).
Proof.
  unfold response_of, api_data, log_of.
  destruct (raised (error (supabase api_query))); reflexivity.
Qed.

Lemma serve_cons supabase req rest console :
  serve ((supabase, req) :: rest) console =
    (fst (serve rest (console ++ [log_of (supabase api_query)])),
     response_of supabase req [] :: snd (serve rest (console ++ [log_of (supabase api_query)]))).
Proof.
  cbn [serve]. rewrite api_data_log.
  destruct (serve rest (console ++ [log_of (supabase api_query)])); reflexivity.
Qed.

(** X1. Over any sequence of calls the console only grows, by one line per
    call and in the order of the calls: the error object of a failed
    query, the rows in full of a successful one. The answers are, call by
    call, those of a process that had handled nothing before. *)
Theorem serve_logs_every_call calls : forall console,
  fst (serve calls console) =
    console ++ map (fun call => log_of (fst call api_query)) calls
  /\ length (fst (serve calls console)) = (length console + length calls)%nat
  /\ snd (serve calls console) =
     map (fun call => response_of (fst call) (snd call) []) calls.
Proof.
  induction calls as [| [supabase req] rest IH]; intros console.
  - cbn. rewrite app_nil_r, Nat.add_0_r. auto.
  - rewrite serve_cons. cbn [fst snd map length].
    destruct (IH (console ++ [log_of (supabase api_query)])) as (Hlog & Hlen & Hres).
    rewrite Hlog, Hres, <- app_assoc. repeat split.
    rewrite !length_app, length_map. reflexivity.
Qed.

End ServerProofs.

(** ** The rendered table: when it renders, its shape, its links *)

Module TableProofs.

Import Frontend Table.

(** The arrow function of [rows.map] on a row it can read, and on one it
    cannot. *)
Lemma row_view_readable row :
  readable row = true ->
  row_view row =
    Ok (Elem "tr" (Some (field "DA_Number" row)) []
          [td (field "DA_Number" row);
           detail_url_cell (field "Detail_URL" row);
           td (field "Description" row);
           td (field "Submitted_Date" row);
           td (field "Decision" row);
           td (field "Categories" row);
           td (field "Property_Address" row);
           td (field "Applicant" row);
           td (field "Progress" row);
           td (field "Fees" row);
           documents_cell (field "Documents" row);
           td (field "Contact_Council" row)]).
Proof.
  destruct row; cbn [readable]; intros H; try discriminate H; reflexivity.
Qed.

Lemma row_view_unreadable row :
  readable row = false -> exists msg, row_view row = Throw msg.
Proof.
  destruct row; cbn [readable]; intros H; try discriminate H; eexists; reflexivity.
Qed.

Lemma row_view_Ok_readable row tr : row_view row = Ok tr -> readable row = true.
Proof.
  intros H. destruct (readable row) eqn:E; [reflexivity |].
  destruct (row_view_unreadable row E) as [msg Hm]. congruence.
Qed.

Lemma mapM_Ok_iff {A B} (f : A -> result B) xs :
  (exists ys, mapM f xs = Ok ys) <-> Forall (fun x => exists y, f x = Ok y) xs.
Proof.
  induction xs as [| x xs IH]; cbn.
  - split; [constructor | eauto].
  - split.
    + intros [ys H].
      apply ViewProofs.bind_Ok in H as (y & Hy & H).
      apply ViewProofs.bind_Ok in H as (ys' & Hys & _).
      constructor; [eauto | apply IH; eauto].
    + intros H. inversion H as [| ? ? [y Hy] Hrest]; subst.
      apply IH in Hrest as [ys Hys]. exists (y :: ys).
      rewrite Hy. cbn. rewrite Hys. reflexivity.
Qed.

Lemma App_view_readable items :
  forallb readable items = true -> exists tree, App_view (Arr items) = Ok tree.
Proof.
  intros Hall.
  assert (Hmap : exists trs, mapM row_view items = Ok trs).
  { apply mapM_Ok_iff, Forall_forall. intros row Hin.
    rewrite forallb_forall in Hall.
    rewrite row_view_readable by auto. eauto. }
  destruct Hmap as [trs Hmap]. unfold App_view. cbn [array_map].
  rewrite Hmap. cbn. eauto.
Qed.

(** X2. [App] renders exactly when [rows] is an array with no [null] and
    no [undefined] among its elements; anything else -- [null], an object,
    a string, an array with a hole -- makes the render throw. The empty
    array renders. *)
Theorem App_view_renders_iff rows :
  (exists tree, App_view rows = Ok tree)
  <-> exists items, rows = Arr items /\ forallb readable items = true.
Proof.
  split.
  - intros [tree H]. unfold App_view in H.
    apply ViewProofs.bind_Ok in H as (trs & Hmap & _).
    destruct rows; cbn [array_map] in Hmap; try discriminate Hmap.
    exists items. split; [reflexivity |].
    apply forallb_forall. intros row Hin.
    assert (Hall : Forall (fun x => exists y, row_view x = Ok y) items)
      by (apply mapM_Ok_iff; eauto).
    rewrite Forall_forall in Hall. destruct (Hall row Hin) as [tr Htr].
    now apply row_view_Ok_readable in Htr.
  - intros (items & -> & Hall). now apply App_view_readable.
Qed.

(** The rows of the body, element by element. *)
Lemma data_rows_readable items tree :
  App_view (Arr items) = Ok tree ->
  Forall2 (fun row tr => readable row = true /\ row_view row = Ok tr)
          items (data_rows tree).
Proof.
  intros H. apply ViewProofs.App_view_data_rows in H.
  induction H as [| row tr items trs Hrow _ IH]; constructor; auto.
  split; [now apply row_view_Ok_readable in Hrow | exact Hrow].
Qed.

(** X3. The body of the table has one [tr] per element of the array, in
    the array's order; each has the row's [DA_Number] as its [key] (two
    rows with the same [DA_Number] get the same key) and twelve [td]
    cells, as many as the head has [th] cells. *)
Theorem table_shape items tree :
  App_view (Arr items) = Ok tree ->
  length (data_rows tree) = length items
  /\ Forall2
       (fun row tr =>
          tag_of tr = "tr"
          /\ key_of tr = Some (field "DA_Number" row)
          /\ length (children_of tr) = length COLUMNS
          /\ Forall (fun c => tag_of c = "td") (children_of tr))
       items (data_rows tree)
  /\ exists head,
       header_rows tree = [head]
       /\ map tag_of (children_of head) = map (fun _ => "th") COLUMNS
       /\ map text_of (children_of head) = map Ok COLUMNS.
Proof.
  intros H. split; [| split].
  - apply ViewProofs.App_view_data_rows in H.
    symmetry. induction H; cbn; congruence.
  - apply data_rows_readable in H.
    induction H as [| row tr items trs [Hread Hrow] _ IH]; constructor; auto.
    rewrite row_view_readable in Hrow by assumption. injection Hrow as <-.
    repeat split. repeat constructor.
  - eexists. split; [now apply (ViewProofs.App_view_header_rows _ _ H) |].
    split; reflexivity.
Qed.

Lemma table_shape_witness :
  exists tree,
    App_view (Arr Samples.table_rows) = Ok tree
    /\ length (data_rows tree) = 5%nat.
Proof.
  eexists. split; [reflexivity |].
  apply (table_shape Samples.table_rows). reflexivity.
Defined.

(** X4. In every rendered row each cell stands under its own label: the
    cell of column [i] shows the property whose name, underscores read as
    spaces, is the [i]-th label of the head -- as a hyperlink in the two
    link columns, as it is in the ten others. *)
Theorem cells_under_their_labels items tree :
  App_view (Arr items) = Ok tree ->
  Forall2
    (fun row tr =>
       forall i f,
         nth_error FIELDS i = Some f ->
         nth_error COLUMNS i = Some (label_of f)
         /\ cell i tr = Some (cell_for i f row))
    items (data_rows tree).
Proof.
  intros H. apply data_rows_readable in H.
  induction H as [| row tr items trs [Hread Hrow] _ IH]; constructor; auto.
  rewrite row_view_readable in Hrow by assumption. injection Hrow as <-.
  intros i f Hi.
  do 12 (destruct i as [| i]; [injection Hi as <-; split; reflexivity |]).
  destruct i; discriminate Hi.
Qed.

Lemma cells_under_their_labels_witness :
  exists tree,
    App_view (Arr Samples.table_rows) = Ok tree
    /\ Forall2
         (fun row tr =>
            forall i f,
              nth_error FIELDS i = Some f ->
              nth_error COLUMNS i = Some (label_of f)
              /\ cell i tr = Some (cell_for i f row))
         Samples.table_rows (data_rows tree).
Proof.
  eexists. split; [reflexivity |].
  apply (cells_under_their_labels Samples.table_rows). reflexivity.
Defined.

(** The tree [App] returns is the fixed frame around the rows of the
    body. *)
Lemma App_view_frame items tree :
  App_view (Arr items) = Ok tree ->
  tree =
    Elem "div" None [("className", Str "container")]
      [Elem "h1" None [] [Child (Str "Scraped Data")];
       Elem "table" None [("className", Str "styled-table")]
         [Elem "thead" None [] [Elem "tr" None [] (map th COLUMNS)];
          Elem "tbody" None [] (data_rows tree)]].
Proof.
  intros H. pose proof (ViewProofs.App_view_data_rows _ _ H) as Hrows.
  unfold App_view in H.
  apply ViewProofs.bind_Ok in H as (trs & Hmap & H). injection H as <-.
  cbn [array_map] in Hmap. apply ViewProofs.mapM_Forall2 in Hmap.
  assert (Heq : forall (xs : list Value) (ys zs : list Node),
             Forall2 (fun row tr => row_view row = Ok tr) xs ys ->
             Forall2 (fun row tr => row_view row = Ok tr) xs zs -> ys = zs).
  { clear. intros xs ys zs Hy. revert zs.
    induction Hy as [| x y xs ys Hxy _ IH]; intros zs Hz; inversion Hz; subst;
      [reflexivity |].
    f_equal; [congruence | now apply IH]. }
  now rewrite (Heq _ _ _ Hrows Hmap).
Qed.

(** The [a] elements of a row: the Detail URL link, then the Documents
    link when the cell has one. *)
Lemma row_anchors row tr :
  readable row = true -> row_view row = Ok tr ->
  select_all "a" tr =
    anchor (field "Detail_URL" row) (Child (field "Detail_URL" row))
    :: (if truthy (documents_test (field "Documents" row))
        then [documents_link (field "Documents" row)] else []).
Proof.
  intros Hread Hrow. rewrite row_view_readable in Hrow by assumption.
  injection Hrow as <-. unfold documents_cell.
  destruct (truthy (documents_test (field "Documents" row))); reflexivity.
Qed.

Lemma anchor_opens_outside url content : opens_outside (anchor url content) = true.
Proof. reflexivity. Qed.

(** X5. Every [a] element of the rendered table is written with
    [target="_blank"] and [rel="noreferrer"]; they all stand in the body,
    one or two per row, none in the head. *)
Theorem every_link_opens_outside items tree :
  App_view (Arr items) = Ok tree ->
  forallb opens_outside (select_all "a" tree) = true
  /\ select_all "a" tree = flat_map (select_all "a") (data_rows tree)
  /\ Forall (fun tr => (1 <= length (select_all "a" tr) <= 2)%nat) (data_rows tree)
  /\ Forall (fun head => select_all "a" head = []) (header_rows tree).
Proof.
  intros H.
  assert (Hall : select_all "a" tree = flat_map (select_all "a") (data_rows tree)).
  { rewrite (App_view_frame _ _ H) at 1. cbn. now rewrite !app_nil_r. }
  assert (Hrows : Forall (fun tr => forallb opens_outside (select_all "a" tr) = true
                                    /\ (1 <= length (select_all "a" tr) <= 2)%nat)
                         (data_rows tree)).
  { clear Hall. apply data_rows_readable in H.
    induction H as [| row tr items trs [Hread Hrow] _ IH]; constructor; auto.
    rewrite (row_anchors row tr Hread Hrow).
    destruct (truthy (documents_test (field "Documents" row))); cbn; auto. }
  split; [| split; [exact Hall | split]].
  - rewrite Hall. clear -Hrows.
    induction Hrows as [| tr trs [Htr _] _ IH]; cbn; [reflexivity |].
    now rewrite forallb_app, Htr, IH.
  - eapply Forall_impl; [| exact Hrows]. now intros tr [_ Hlen].
  - rewrite (ViewProofs.App_view_header_rows _ _ H). repeat constructor.
Qed.

Lemma every_link_opens_outside_witness :
  exists tree,
    App_view (Arr Samples.table_rows) = Ok tree
    /\ forallb opens_outside (select_all "a" tree) = true
    /\ length (select_all "a" tree) = 6%nat.
Proof.
  eexists. split; [reflexivity |]. split; [| reflexivity].
  apply (every_link_opens_outside Samples.table_rows). reflexivity.
Defined.







(** Values React accepts as children, and one it refuses. *)
Example renderable_examples :
  renderable (Str "text") = true
  /\ renderable (Num 42) = true
  /\ renderable Null = true
  /\ renderable Undefined = true
  /\ renderable (Bool true) = true
  /\ renderable (Arr [Str "a"; Num 1]) = true
  /\ renderable (Obj [("a", Num 1)]) = false
  /\ renderable (Arr [Obj []]) = false
  /\ showable (Samples.da_record 1 (Obj [("url", Str "x")])) = true
  /\ showable (Obj [("Fees", Obj [("amount", Num 100)])]) = false.
Proof. repeat split. Qed.

(** The keys of the body, row by row. *)
Lemma data_row_keys items tree :
  App_view (Arr items) = Ok tree ->
  map key_of (data_rows tree) = map (fun row => Some (field "DA_Number" row)) items.
Proof.
  intros H. apply data_rows_readable in H.
  induction H as [| row tr items trs [Hread Hrow] _ IH]; cbn [map]; [reflexivity |].
  rewrite IH. rewrite row_view_readable in Hrow by assumption.
  injection Hrow as <-. reflexivity.
Qed.

End TableProofs.

(** ** The page over its whole history *)

Module LifecycleProofs.

Import Frontend Lifecycle.

(** The end of the request leaves the page settled, with [rows], the
    console and the screen as the outcome makes them. *)
Lemma first_outcome o :
  settled (step page_load (Settle o))
  /\ rows (step page_load (Settle o)) = rows_after (Some o)
  /\ console (step page_load (Settle o)) = console_after (Some o)
  /\ screen (step page_load (Settle o))
     = Some (paint (App_view (rows (step page_load (Settle o))))).
Proof.
  cbn [step]. change (in_flight page_load) with 1%nat. cbv iota.
  unfold rows_after, console_after.
  destruct (settle o) as [res | err]; cbn [then_catch].
  - unfold setRows.
    match goal with |- context [render ?s] =>
      destruct (ClientProofs.render_after_mount s eq_refl) as (H1 & H2 & H3);
      pose proof (ClientProofs.render_rows s) as Hrows;
      pose proof (ClientProofs.render_console s) as Hconsole;
      pose proof (ClientProofs.render_screen s eq_refl) as Hscreen
    end.
    split; [| split; [| split]].
    + unfold settled. rewrite H1, H2, H3. repeat split.
    + exact Hrows.
    + exact Hconsole.
    + now rewrite Hscreen, Hrows.
  - repeat split.
Qed.

(** Nothing that happens to a settled page changes [rows] or the console;
    what is on screen stays the rendering of [rows]. *)
Lemma step_settled_same st ev :
  settled st ->
  screen st = Some (paint (App_view (rows st))) ->
  rows (step st ev) = rows st
  /\ console (step st ev) = console st
  /\ screen (step st ev) = Some (paint (App_view (rows (step st ev)))).
Proof.
  intros (Hfl & _ & _) Hscreen. destruct ev as [| o]; cbn [step].
  - rewrite ClientProofs.render_rows, ClientProofs.render_console.
    repeat split.
    destruct (mounted st) eqn:Hm.
    + now apply ClientProofs.render_screen.
    + unfold render. now rewrite Hm.
  - rewrite Hfl. auto.
Qed.

Lemma run_settled_same evs : forall st,
  settled st ->
  screen st = Some (paint (App_view (rows st))) ->
  rows (run st evs) = rows st
  /\ console (run st evs) = console st
  /\ screen (run st evs) = Some (paint (App_view (rows (run st evs)))).
Proof.
  induction evs as [| ev evs IH]; intros st Hst Hscreen; [auto |].
  change (run st (ev :: evs)) with (run (step st ev) evs).
  destruct (step_settled_same st ev Hst Hscreen) as (Hrows & Hconsole & Hscreen').
  destruct (IH (step st ev) (ClientProofs.step_settled st ev Hst) Hscreen')
    as (H1 & H2 & H3).
  repeat split; congruence.
Qed.

(** The page after a history, read off its first outcome. *)
Lemma run_first_settle evs :
  rows (run page_load evs) = rows_after (first_settle evs)
  /\ console (run page_load evs) = console_after (first_settle evs)
  /\ in_flight (run page_load evs)
     = match first_settle evs with None => 1%nat | Some _ => 0%nat end
  /\ screen (run page_load evs) = Some (paint (App_view (rows (run page_load evs)))).
Proof.
  induction evs as [| [| o] evs IH].
  - repeat split.
  - change (run page_load (Rerender :: evs)) with (run (render page_load) evs).
    rewrite ClientProofs.render_page_load. exact IH.
  - change (run page_load (Settle o :: evs))
      with (run (step page_load (Settle o)) evs).
    cbn [first_settle].
    destruct (first_outcome o) as (Hst & Hrows & Hconsole & Hscreen).
    destruct (run_settled_same evs _ Hst Hscreen) as (H1 & H2 & H3).
    pose proof (ClientProofs.run_settled evs _ Hst) as (Hfl & _).
    repeat split; congruence.
Qed.

(** X7. Whatever happens after the page load, [rows] is decided by the
    first request outcome alone: before it, and after a rejected request,
    [rows] is the empty array; after a fulfilled one it is the data of
    that response. Later renders do not change it, and no later outcome
    is taken, the one request being settled. *)
Theorem rows_decided_by_first_outcome evs :
  rows (run page_load evs) = rows_after (first_settle evs)
  /\ in_flight (run page_load evs)
     = match first_settle evs with None => 1%nat | Some _ => 0%nat end
  /\ (forall o later,
        first_settle evs = Some o ->
        rows (run page_load (evs ++ later)) = rows (run page_load evs)).
Proof.
  destruct (run_first_settle evs) as (Hrows & _ & Hfl & _).
  split; [exact Hrows |]. split; [exact Hfl |].
  intros o later Hfirst.
  destruct (run_first_settle (evs ++ later)) as (Hrows' & _).
  rewrite Hrows', Hrows. f_equal.
  clear -Hfirst. induction evs as [| [| o'] evs IH]; cbn in *; auto; discriminate.
Qed.

(** X8. At every moment after the page load, what is on screen is the
    rendering of the current [rows]: the table of [App] for them, or the
    exception their rendering throws. *)
Theorem screen_shows_rows evs :
  screen (run page_load evs) = Some (paint (App_view (rows (run page_load evs)))).
Proof.
  destruct (run_first_settle evs) as (_ & _ & _ & Hscreen).
  exact Hscreen.
Qed.

(** A page whose rendering threw does nothing any more. *)
Lemma step_unmounted st ev :
  mounted st = false -> in_flight st = 0%nat -> step st ev = st.
Proof.
  intros Hm Hfl. destruct ev as [| o]; cbn [step].
  - unfold render. now rewrite Hm.
  - now rewrite Hfl.
Qed.

Lemma run_unmounted evs st :
  mounted st = false -> in_flight st = 0%nat -> run st evs = st.
Proof.
  intros Hm Hfl. induction evs as [| ev evs IH]; [reflexivity |].
  change (run st (ev :: evs)) with (run (step st ev) evs).
  now rewrite step_unmounted.
Qed.

(** Only an array has [map]. *)
Lemma App_view_not_array payload :
  (forall items, payload <> Arr items) -> exists msg, paint (App_view payload) = Throw msg.
Proof.
  intros Hno. destruct payload; try (eexists; reflexivity).
  now destruct (Hno items).
Qed.

(** X9. When the request is fulfilled with data whose rendering throws --
    anything but an array, an array with a [null] element, an object in a
    shown property -- [rows] is that data all the same, the table is gone
    from the screen, and nothing that happens afterwards brings it back;
    no request is sent again. *)
Theorem unrenderable_data_takes_page_down evs status payload msg :
  in_flight (run page_load evs) <> 0%nat ->
  validateStatus status = true ->
  paint (App_view payload) = Throw msg ->
  let st' := step (run page_load evs) (Settle (Responded status payload)) in
  rows st' = payload
  /\ screen st' = Some (Throw msg)
  /\ mounted st' = false
  /\ requests st' = [API_URL]
  /\ forall later, run st' later = st'.
Proof.
  intros Hfl Hok Hthrow st'. subst st'.
  rewrite (ClientProofs.in_flight_page_load evs Hfl).
  cbn [step]. change (in_flight page_load) with 1%nat. cbv iota.
  unfold settle. rewrite Hok. cbn [then_catch res_data]. unfold setRows.
  unfold render. cbn [mounted rows]. rewrite Hthrow.
  repeat split.
  intros later. now apply run_unmounted.
Qed.

Lemma unrenderable_data_takes_page_down_witness :
  rows (step (run page_load [Rerender]) (Settle (Responded 200 Null))) = Null
  /\ screen (step (run page_load [Rerender]) (Settle (Responded 200 Null)))
     = Some (Throw "Cannot read properties of null").
Proof.
  destruct (unrenderable_data_takes_page_down
              [Rerender] 200 Null "Cannot read properties of null")
    as (Hrows & Hscreen & _).
  - cbn. discriminate.
  - reflexivity.
  - reflexivity.
  - split; [exact Hrows | exact Hscreen].
Defined.

End LifecycleProofs.

(** ** From the Data Service to the page *)

Module WireProofs.

Import Wire.

(** The page asks the address the process listens on. *)
Lemma client_url_is_route :
  Frontend.API_URL
  = ("http://localhost:" ++ num_to_string Server.PORT ++ Server.ROUTE)%string.
Proof. reflexivity. Qed.

(** What a JSON object holds under a name is JSON. *)
Lemma lookup_is_json k props v :
  forallb (fun p => is_json (snd p)) props = true ->
  lookup k props = Some v -> is_json v = true.
Proof.
  induction props as [| [k' v'] props IH]; cbn; [discriminate |].
  intros Hall. apply andb_true_iff in Hall as [Hv Hrest].
  destruct (k' =? k)%string; [now intros [= <-] | now apply IH].
Qed.

(** The message of a JSON error is JSON, when there is one. *)
Lemma message_is_json e :
  is_json e = true ->
  Backend.message e = Undefined \/ is_json (Backend.message e) = true.
Proof.
  intros He. unfold Backend.message.
  destruct e; cbn [get]; try (now left).
  destruct (lookup "message" props) as [v |] eqn:Hl; [right | now left].
  exact (lookup_is_json _ _ _ He Hl).
Qed.

(** The body of a 500 answer is JSON when the error is. *)
Lemma error_body_is_json e :
  is_json e = true ->
  is_json (Backend.json_object [("error", Backend.message e)]) = true.
Proof.
  intros He. rewrite BackendProofs.json_object_error.
  destruct (message_is_json e He) as [-> | Hm]; [reflexivity |].
  assert (Hone : forall v, is_json (Obj [("error", v)]) = is_json v)
    by (intros v; cbn; apply andb_true_r).
  destruct (Backend.message e); try reflexivity; now rewrite Hone.
Qed.

(** X10. When the query of the Data Service fails, the page that asked the
    route keeps its empty table: the route answers 500, axios rejects it,
    and the one thing the page does is hand [console.error] the error,
    which carries the status 500 and the body the route sent -- the
    [{error: message}] object when the error of the Data Service has a
    message, the empty object when it has none; [rows] stays empty and the
    screen is the one of the page load. *)
Theorem query_failure_leaves_empty_table supabase req console d e :
  supabase Backend.api_query = {| Backend.data := d; Backend.error := Some e |} ->
  truthy e = true ->
  is_json e = true ->
  exists st,
    page_after supabase req console = Some st
    /\ Frontend.rows st = Arr []
    /\ Frontend.console st =
       [{| Frontend.err_message := "Request failed with status code 500";
           Frontend.err_response :=
             Some {| Frontend.res_status := 500;
                     Frontend.res_data :=
                       Backend.json_object [("error", Backend.message e)] |} |}]
    /\ Frontend.screen st = Frontend.screen Frontend.page_load
    /\ Frontend.mounted st = true
    /\ Frontend.requests st = [Frontend.API_URL].
Proof.
  intros Hq Ht Hjson. unfold page_after, deliver.
  rewrite BackendProofs.response_of_result, Hq.
  cbn [Backend.error Backend.raised]. rewrite Ht.
  cbn [Backend.body Backend.statusCode].
  rewrite (error_body_is_json e Hjson).
  eexists. split; [reflexivity |].
  repeat split.
Qed.

Lemma query_failure_leaves_empty_table_witness :
  exists st,
    page_after Samples.unreachable_service Samples.plain_request [] = Some st
    /\ Frontend.rows st = Arr []
    /\ Frontend.console st =
       [{| Frontend.err_message := "Request failed with status code 500";
           Frontend.err_response :=
             Some {| Frontend.res_status := 500; Frontend.res_data := Obj [] |} |}].
Proof.
  destruct (query_failure_leaves_empty_table
              Samples.unreachable_service Samples.plain_request []
              Null Samples.gateway_error eq_refl eq_refl eq_refl)
    as (st & Hpage & Hrows & Hconsole & _).
  exists st. split; [exact Hpage |]. split; [exact Hrows | exact Hconsole].
Defined.

(** A successful answer, as the page receives it. *)
Lemma page_after_success supabase req console rows :
  supabase Backend.api_query = {| Backend.data := Arr rows; Backend.error := None |} ->
  is_json (Arr rows) = true ->
  page_after supabase req console
  = Some (Frontend.step Frontend.page_load
            (Frontend.Settle (Frontend.Responded 200 (Arr rows)))).
Proof.
  intros Hq Hjson. unfold page_after, deliver.
  rewrite BackendProofs.response_of_result, Hq.
  cbn [Backend.error Backend.raised Backend.body Backend.statusCode Backend.data].
  now rewrite Hjson.
Qed.

(** X11. When the query succeeds with an array of JSON rows, the [rows] of
    the page that asked the route are the rows of the Data Service, as
    many and in the same order; the screen is the rendering of those rows,
    and when it renders, nothing has gone to [console.error] and the body
    of the table has one row per row of the Data Service, in its order. *)
Theorem service_rows_reach_page supabase req console rows :
  supabase Backend.api_query = {| Backend.data := Arr rows; Backend.error := None |} ->
  is_json (Arr rows) = true ->
  exists st,
    page_after supabase req console = Some st
    /\ Frontend.rows st = Arr rows
    /\ Frontend.screen st = Some (Frontend.paint (Frontend.App_view (Arr rows)))
    /\ Frontend.requests st = [Frontend.API_URL]
    /\ (forall tree,
          Frontend.screen st = Some (Ok tree) ->
          Frontend.console st = []
          /\ length (Frontend.data_rows tree) = length rows
          /\ Forall2 (fun row tr => Frontend.row_view row = Ok tr)
                     rows (Frontend.data_rows tree)).
Proof.
  intros Hq Hjson. unfold page_after, deliver.
  rewrite BackendProofs.response_of_result, Hq.
  cbn [Backend.error Backend.raised Backend.body Backend.statusCode Backend.data].
  rewrite Hjson.
  eexists. split; [reflexivity |].
  destruct (LifecycleProofs.first_outcome (Frontend.Responded 200 (Arr rows)))
    as ((_ & _ & Hreq) & Hrows & Hconsole & Hscreen).
  assert (Hsettle : Frontend.settle (Frontend.Responded 200 (Arr rows))
                    = inl {| Frontend.res_status := 200; Frontend.res_data := Arr rows |})
    by reflexivity.
  unfold Lifecycle.rows_after in Hrows. unfold Lifecycle.console_after in Hconsole.
  rewrite Hsettle in Hrows, Hconsole. cbn [Frontend.res_data] in Hrows.
  split; [exact Hrows |].
  rewrite Hrows in Hscreen.
  split; [exact Hscreen |]. split; [exact Hreq |].
  intros tree Htree. rewrite Hscreen in Htree. injection Htree as Hpaint.
  apply ClientProofs.paint_Ok in Hpaint.
  pose proof (ViewProofs.App_view_data_rows _ _ Hpaint) as Hrows2.
  split; [exact Hconsole |]. split; [| exact Hrows2].
  symmetry. clear -Hrows2. induction Hrows2; cbn; congruence.
Qed.

Lemma service_rows_reach_page_witness :
  exists st,
    page_after Samples.ordering_service Samples.busy_request [] = Some st
    /\ Frontend.rows st = Arr Samples.rows_953.
Proof.
  destruct (service_rows_reach_page
              Samples.ordering_service Samples.busy_request [] Samples.rows_953
              eq_refl eq_refl)
    as (st & Hpage & Hrows & _).
  exists st. split; [exact Hpage | exact Hrows].
Defined.

(** X12. The order of the table on screen is the order of the Data
    Service: the keys of the rows of the body are, top to bottom, the
    [DA_Number]s of the rows the Data Service returned; so with a Data
    Service that orders as it is asked, the table reads largest
    [DA_Number] first. Neither the route nor the page sorts. *)
Theorem table_order_is_service_order supabase req console rows st tree :
  supabase Backend.api_query = {| Backend.data := Arr rows; Backend.error := None |} ->
  is_json (Arr rows) = true ->
  page_after supabase req console = Some st ->
  Frontend.screen st = Some (Ok tree) ->
  map Table.key_of (Frontend.data_rows tree)
  = map (fun row => Some (Table.field "DA_Number" row)) rows
  /\ (Backend.honours_order supabase -> Backend.descending rows = true).
Proof.
  intros Hq Hjson Hpage Hscreen.
  rewrite (page_after_success supabase req console rows Hq Hjson) in Hpage.
  assert (Hst : st = Frontend.step Frontend.page_load
                       (Frontend.Settle (Frontend.Responded 200 (Arr rows))))
    by congruence.
  subst st. clear Hpage.
  destruct (LifecycleProofs.first_outcome (Frontend.Responded 200 (Arr rows)))
    as (_ & Hrows & _ & Hshown).
  assert (Hsettle : Frontend.settle (Frontend.Responded 200 (Arr rows))
                    = inl {| Frontend.res_status := 200; Frontend.res_data := Arr rows |})
    by reflexivity.
  unfold Lifecycle.rows_after in Hrows. rewrite Hsettle in Hrows.
  cbn [Frontend.res_data] in Hrows.
  rewrite Hrows, Hscreen in Hshown. injection Hshown as Hpaint.
  symmetry in Hpaint. apply ClientProofs.paint_Ok in Hpaint.
  split.
  - now apply TableProofs.data_row_keys.
  - intros Horders. rewrite <- BackendProofs.ordered_as_api_query.
    now apply Horders.
Qed.

Lemma table_order_is_service_order_witness :
  exists tree,
    Frontend.screen
      (Frontend.step Frontend.page_load
         (Frontend.Settle (Frontend.Responded 200 (Arr Samples.rows_953))))
    = Some (Ok tree)
    /\ map Table.key_of (Frontend.data_rows tree) = [Some (Num 9); Some (Num 5); Some (Num 3)]
    /\ Backend.descending Samples.rows_953 = true.
Proof.
  eexists. split; [reflexivity |].
  destruct (table_order_is_service_order
              Samples.ordering_service Samples.plain_request [] Samples.rows_953
              _ _ eq_refl eq_refl eq_refl eq_refl)
    as (Hkeys & Hdesc).
  split; [exact Hkeys |].
  apply Hdesc, BackendProofs.ordering_service_honours_order.
Defined.

End WireProofs.
